(** * CConfig: repository configuration resolver

    A shallow embedding of [config/CConfig.py] and the properties of its
    construction, lookup and print operations.

    The class keeps one dictionary, [self.__dictConfig], filled by
    [__init__] and [__InitConfig] and read by [Get] and [PrintConfig].
    Everything the class asks of the machine it runs on ([os.name],
    [platform.system()], [sys.executable], [os.path.*], the file system and
    [pypandoc.get_pandoc_path()]) is gathered in the record [Host]; the
    methods are programs of a state-and-exception monad over the object's
    attributes and the console. *)

From Stdlib Require Import String Ascii List Bool Arith Lia.
Import ListNotations.
Open Scope string_scope.

(** ** Characters and strings of the Python side *)

Definition nl : string := String (ascii_of_nat 10) EmptyString.
Definition esc : string := String (ascii_of_nat 27) EmptyString.
Definition dquote : ascii := ascii_of_nat 34.
Definition squote : ascii := ascii_of_nat 39.
Definition backslash : ascii := ascii_of_nat 92.

(** [colorama]: [Style.BRIGHT], [Fore.RED] and [Fore.GREEN] are the ANSI
    sequences ESC[1m, ESC[31m and ESC[32m. *)
Definition Style_BRIGHT : string := esc ++ "[1m".
Definition Fore_RED : string := esc ++ "[31m".
Definition Fore_GREEN : string := esc ++ "[32m".

Definition COLBR : string := Style_BRIGHT ++ Fore_RED.
Definition COLBG : string := Style_BRIGHT ++ Fore_GREEN.

Fixpoint spaces (n : nat) : string :=
  match n with
  | O => EmptyString
  | S m => String " " (spaces m)
  end.

(** [s.rjust(n, ' ')] *)
Definition rjust (n : nat) (s : string) : string :=
  spaces (n - String.length s) ++ s.

Fixpoint has_char (c : ascii) (s : string) : bool :=
  match s with
  | EmptyString => false
  | String d r => Ascii.eqb c d || has_char c r
  end.

Definition hex_digit (n : nat) : ascii :=
  ascii_of_nat (if (n <? 10)%nat then 48 + n else 87 + n).

Definition repr_char (q c : ascii) : string :=
  let n := nat_of_ascii c in
  if Ascii.eqb c backslash then String backslash (String backslash EmptyString)
  else if Ascii.eqb c q then String backslash (String q EmptyString)
  else if (n =? 10)%nat then String backslash "n"
  else if (n =? 13)%nat then String backslash "r"
  else if (n =? 9)%nat then String backslash "t"
  else if (n <? 32)%nat || (n =? 127)%nat then
    String backslash
      (String "x" (String (hex_digit (n / 16)) (String (hex_digit (n mod 16)) EmptyString)))
  else String c EmptyString.

Fixpoint repr_body (q : ascii) (s : string) : string :=
  match s with
  | EmptyString => EmptyString
  | String c r => repr_char q c ++ repr_body q r
  end.

(** [repr(s)] of a string of ASCII characters: single quotes, unless the
    string holds a single quote and no double quote. *)
Definition repr_str (s : string) : string :=
  let q := if has_char squote s && negb (has_char dquote s) then dquote else squote in
  String q (repr_body q s ++ String q EmptyString).

Fixpoint join (sep : string) (l : list string) : string :=
  match l with
  | [] => EmptyString
  | [x] => x
  | x :: r => x ++ sep ++ join sep r
  end.

(** [needle in hay] on strings *)
Fixpoint contains (needle hay : string) : bool :=
  String.prefix needle hay ||
  match hay with
  | EmptyString => false
  | String _ r => contains needle r
  end.

(** ** Values and the dictionary *)

(** What the class stores under a key: [None], a string, or a list of
    strings. *)
Inductive value : Type :=
| VNone
| VStr (s : string)
| VList (l : list string).

(** [str(v)] *)
Definition str (v : value) : string :=
  match v with
  | VNone => "None"
  | VStr s => s
  | VList l => "[" ++ join ", " (map repr_str l) ++ "]"
  end.

(** A Python [dict] with string keys: insertion ordered, one entry per
    key. *)
Definition dict : Type := list (string * value).

Fixpoint dict_get (k : string) (d : dict) : option value :=
  match d with
  | [] => None
  | (k', v) :: r => if String.eqb k k' then Some v else dict_get k r
  end.

(** [k in d] *)
Definition dict_mem (k : string) (d : dict) : bool :=
  match dict_get k d with
  | Some _ => true
  | None => false
  end.

(** [d[k] = v]: an existing key keeps its place, a new one goes last. *)
Fixpoint dict_set (k : string) (v : value) (d : dict) : dict :=
  match d with
  | [] => [(k, v)]
  | (k', v') :: r =>
      if String.eqb k k' then (k', v) :: r else (k', v') :: dict_set k v r
  end.

Definition keys (d : dict) : list string := map fst d.

(** ** Exceptions, console and the monad of the methods *)

(** An exception of class [Exception] or of one of its subclasses, by the
    name of its class and its [str()]. *)
Inductive exn : Type :=
| PyExn (cls : string) (msg : string).

Definition str_exn (e : exn) : string :=
  match e with PyExn _ msg => msg end.

Inductive outcome (A : Type) : Type :=
| Returned (a : A)
| Raised (e : exn).
Arguments Returned {A} a.
Arguments Raised {A} e.

Inductive stream : Type := Stdout | Stderr.

(** The console: every write, oldest first. *)
Definition console : Type := list (stream * string).

(** The attributes of one object, [self.__dictConfig] and
    [self.__sReferencePath]. *)
Record instance : Type := mkInstance {
  dictConfig : dict;
  sReferencePath : string
}.

Record world : Type := mkWorld {
  self : instance;
  out : console
}.

Definition M (A : Type) : Type := world -> outcome A * world.

Definition ret {A} (a : A) : M A := fun w => (Returned a, w).

Definition bind {A B} (m : M A) (k : A -> M B) : M B :=
  fun w =>
    match m w with
    | (Returned a, w') => k a w'
    | (Raised e, w') => (Raised e, w')
    end.

Definition raise {A} (e : exn) : M A := fun w => (Raised e, w).

Notation "x <- m ;; k" := (bind m (fun x => k))
  (at level 61, m at next level, right associativity).
Notation "m ;; k" := (bind m (fun _ => k))
  (at level 61, right associativity).

Definition write (s : stream) (text : string) : M unit :=
  fun w => (Returned tt, mkWorld (self w) (out w ++ [(s, text)])%list).

(** [print(text)] and [print()] *)
Definition print (text : string) : M unit := write Stdout (text ++ nl).
Definition print_empty : M unit := write Stdout nl.

(** [self.__dictConfig[k] = v] *)
Definition set_item (k : string) (v : value) : M unit :=
  fun w =>
    (Returned tt,
     mkWorld (mkInstance (dict_set k v (dictConfig (self w)))
                         (sReferencePath (self w)))
             (out w)).

(** [self.__dictConfig[k]] *)
Definition get_item (k : string) : M value :=
  fun w =>
    match dict_get k (dictConfig (self w)) with
    | Some v => (Returned v, w)
    | None => (Raised (PyExn "KeyError" (repr_str k)), w)
    end.

(** An item used as an operand of string [+]. *)
Definition get_item_str (k : string) : M string :=
  v <- get_item k ;;
  match v with
  | VStr s => ret s
  | _ => raise (PyExn "TypeError" "can only concatenate str")
  end.

Definition get_dict : M dict := fun w => (Returned (dictConfig (self w)), w).
Definition get_reference_path : M string :=
  fun w => (Returned (sReferencePath (self w)), w).

(** [for x in l: body x] *)
Fixpoint for_each {A} (l : list A) (body : A -> M unit) : M unit :=
  match l with
  | [] => ret tt
  | x :: r => body x ;; for_each r body
  end.

(** ** The host *)

(** What the module reads from the interpreter, the operating system and
    [pypandoc]: [os.name], [platform.system()], [sys.executable],
    [sys.version], the functions of [os.path], and the outcome of
    [pypandoc.get_pandoc_path()], which is the path or the exception the
    call raises (an [OSError], hence an [Exception], when pandoc is not
    found).  [sys.executable] and the functions of [os.path] are taken
    where they return: the interpreter knows its own path and the working
    directory exists, so that [os.path.abspath] and [os.path.dirname] do
    not raise. *)
Record Host : Type := mkHost {
  os_name : string;
  platform_system : string;
  sys_executable : string;
  sys_version : string;
  dirname : string -> string;
  normpath : string -> string;
  abspath : string -> string;
  expandvars : string -> string;
  isfile : string -> bool;
  get_pandoc_path : outcome string
}.

(** ** The module *)

(** [printerror(sMsg)] *)
Definition printerror (sMsg : string) : M unit :=
  write Stderr (COLBR ++ "Error: " ++ sMsg ++ "!" ++ nl).

(** [printexception(sMsg)] *)
Definition printexception (sMsg : string) : M unit :=
  write Stderr (COLBR ++ "Exception: " ++ sMsg ++ "!" ++ nl).

Definition nJust : nat := 30.

(** [CConfig.PrintConfig] *)
Definition PrintConfig : M unit :=
  print_empty ;;
  d <- get_dict ;;
  for_each (keys d)
    (fun sKey => v <- get_item sKey ;; print (rjust nJust sKey ++ " : " ++ str v)) ;;
  print_empty.

(** The name handed to [Get] inside an f-string: [None] prints as None. *)
Definition fmt_name (sName : option string) : string :=
  match sName with
  | None => "None"
  | Some s => s
  end.

(** [(sName is None) or (sName not in self.__dictConfig)] *)
Definition name_unknown (sName : option string) (d : dict) : bool :=
  match sName with
  | None => true
  | Some k => negb (dict_mem k d)
  end.

(** [self.__dictConfig[sName]] for the argument of [Get] *)
Definition get_item_named (sName : option string) : M value :=
  match sName with
  | Some k => get_item k
  | None => raise (PyExn "KeyError" "None")
  end.

(** [CConfig.Get]; the result is [VNone] for Python's [None]. *)
Definition Get (sName : option string) : M value :=
  d <- get_dict ;;
  if name_unknown sName d then
    print_empty ;;
    printerror ("Error: Configuration parameter '" ++ fmt_name sName ++ "' not existing!") ;;
    print "Use instead one of:" ;;
    PrintConfig ;;
    ret VNone
  else get_item_named sName.

(** [try: m except Exception as ex: handler ex] *)
Definition try_except {A} (m : M A) (handler : exn -> M A) : M A :=
  fun w =>
    match m w with
    | (Returned a, w') => (Returned a, w')
    | (Raised e, w') => handler e w'
    end.

(** A call into the host that returns or raises. *)
Definition call_host {A} (o : outcome A) : M A := fun w => (o, w).

(** [self.__dictConfig[key] = os.path.normpath(self.__sReferencePath + suffix)] *)
Definition set_reference_item (h : Host) (key suffix : string) : M unit :=
  ref <- get_reference_path ;;
  set_item key (VStr (normpath h (ref ++ suffix))).

(** [__InitConfig], from the test of [sLaTeXInterpreter] (line 154) to the
    end; the arguments are the local variables the platform branch has
    set. *)
Definition InitConfig_tail (h : Host) (sOSName sPlatformSystem sPython : string)
    (SPHINXBUILD sLaTeXInterpreter sInstalledPackageFolder
     sInstalledPackageDocFolder : string) : M (bool * string) :=
  let sLaTeXInterpreter :=
    if negb (isfile h sLaTeXInterpreter) then VNone else VStr sLaTeXInterpreter in
  if negb (isfile h SPHINXBUILD) then
    ret (false, "Missing Sphinx '" ++ SPHINXBUILD ++ "'")
  else
    set_item "SPHINXBUILD" (VStr SPHINXBUILD) ;;
    set_item "sPython" (VStr sPython) ;;
    set_item "sLaTeXInterpreter" sLaTeXInterpreter ;;
    set_item "sInstalledPackageFolder" (VStr sInstalledPackageFolder) ;;
    set_item "sInstalledPackageDocFolder" (VStr sInstalledPackageDocFolder) ;;
    set_reference_item h "sDocumentationBuilder" "/sphinx-makeall.py" ;;
    ref <- get_reference_path ;;
    let SOURCEDIR := normpath h (ref ++ "/doc") in
    set_item "SOURCEDIR" (VStr SOURCEDIR) ;;
    let BUILDDIR := normpath h (SOURCEDIR ++ "/_build") in
    set_item "BUILDDIR" (VStr BUILDDIR) ;;
    let sHTMLOutputFolder := normpath h (BUILDDIR ++ "/html") in
    set_item "sHTMLOutputFolder" (VStr sHTMLOutputFolder) ;;
    set_reference_item h "sReadMe_rst" "/README.rst" ;;
    set_reference_item h "sReadMe_md" "/README.md" ;;
    set_reference_item h "sSetupBuildFolder" "/build" ;;
    set_reference_item h "sSetupBuildLibFolder" "/build/lib" ;;
    pkg <- get_item_str "sPackageName" ;;
    set_reference_item h "sSetupBuildLibDocFolder" ("/build/lib/" ++ pkg ++ "_doc") ;;
    set_reference_item h "sSetupDistFolder" "/dist" ;;
    pkg' <- get_item_str "sPackageName" ;;
    set_reference_item h "sEggInfoFolder" ("/" ++ pkg' ++ ".egg-info") ;;
    print_empty ;;
    print ("Running under " ++ sPlatformSystem ++ " (" ++ sOSName ++ ")") ;;
    PrintConfig ;;
    ret (true, "Repository setup done").

(** [CConfig.__InitConfig] *)
Definition InitConfig (h : Host) : M (bool * string) :=
  let sOSName := os_name h in
  let sPlatformSystem := platform_system h in
  let sPythonPath := dirname h (sys_executable h) in
  let sPython := sys_executable h in
  let sPythonVersion := sys_version h in
  early <- try_except
             (p <- call_host (get_pandoc_path h) ;;
              set_item "sPandoc" (VStr p) ;;
              ret None)
             (fun ex => ret (Some (false, str_exn ex))) ;;
  match early with
  | Some r => ret r
  | None =>
      if String.eqb sPlatformSystem "Windows" then
        pkg <- get_item_str "sPackageName" ;;
        pkg' <- get_item_str "sPackageName" ;;
        InitConfig_tail h sOSName sPlatformSystem sPython
          (sPythonPath ++ "/Scripts/sphinx-build.exe")
          (normpath h (expandvars h "%ROBOTLATEXPATH%/miktex/bin/x64/pdflatex.exe"))
          (sPythonPath ++ "/Lib/site-packages/" ++ pkg)
          (sPythonPath ++ "/Lib/site-packages/" ++ pkg' ++ "_doc")
      else if String.eqb sPlatformSystem "Linux" then
        pkg <- get_item_str "sPackageName" ;;
        pkg' <- get_item_str "sPackageName" ;;
        InitConfig_tail h sOSName sPlatformSystem sPython
          (sPythonPath ++ "/sphinx-build")
          (normpath h (expandvars h "${ROBOTLATEXPATH}/miktex/bin/x64/pdflatex"))
          (sPythonPath ++ "/../lib/python3.9/site-packages/" ++ pkg)
          (sPythonPath ++ "/../lib/python3.9/site-packages/" ++ pkg' ++ "_doc")
      else
        ret (false,
             "Operating system " ++ sPlatformSystem ++ " (" ++ sOSName ++ ") not supported")
  end.

(** [self.__dictConfig = {}] *)
Definition new_dict : M unit :=
  fun w => (Returned tt, mkWorld (mkInstance [] (sReferencePath (self w))) (out w)).

(** [self.__sReferencePath = p] *)
Definition set_reference_path (p : string) : M unit :=
  fun w => (Returned tt, mkWorld (mkInstance (dictConfig (self w)) p) (out w)).

(** [CConfig.__init__] *)
Definition init (h : Host) (sReferencePath : string) : M unit :=
  new_dict ;;
  set_reference_path (normpath h (abspath h sReferencePath)) ;;
  ref <- get_reference_path ;;
  set_item "sReferencePath" (VStr ref) ;;
  set_item "sPackageName" (VStr "RobotResults2DB") ;;
  set_item "sVersion" (VStr "1.0.0") ;;
  set_item "sAuthor" (VStr "Tran Duy Ngoan") ;;
  set_item "sAuthorEMail" (VStr "Ngoan.TranDuy@vn.bosch.com") ;;
  set_item "sDescription"
    (VStr "Package for importing robot result(s) to TestResultWebApp database") ;;
  set_item "sLongDescriptionContentType" (VStr "text/markdown") ;;
  set_item "sURL"
    (VStr "https://github.com/test-fullautomation/robotframework-testresultwebapptool") ;;
  set_item "sProgrammingLanguage" (VStr "Programming Language :: Python :: 3") ;;
  set_item "sLicence" (VStr "License :: OSI Approved :: Apache Software License") ;;
  set_item "sOperatingSystem" (VStr "Operating System :: OS Independent") ;;
  set_item "sPythonRequires" (VStr ">=3.0") ;;
  set_item "sDevelopmentStatus" (VStr "Development Status :: 4 - Beta") ;;
  set_item "sIntendedAudience" (VStr "Intended Audience :: Developers") ;;
  set_item "sTopic" (VStr "Topic :: Software Development") ;;
  set_item "arInstallRequires" (VList ["sphinx"; "pypandoc"; "colorama"]) ;;
  r <- InitConfig h ;;
  let (bSuccess, sResult) := r in
  if negb (Bool.eqb bSuccess true) then raise (PyExn "Exception" sResult)
  else
    print (COLBG ++ sResult) ;;
    print_empty.

(** The attributes of an object before [__init__] has run. *)
Definition blank : instance := mkInstance [] EmptyString.

(** The expression [CConfig(sReferencePath)]: the caller gets the object
    when [__init__] returns, and only the exception when it raises. *)
Definition CConfig (h : Host) (sReferencePath : string) (con : console)
  : outcome instance * console :=
  match init h sReferencePath (mkWorld blank con) with
  | (Returned _, w) => (Returned (self w), out w)
  | (Raised e, w) => (Raised e, out w)
  end.

(** [CConfig()], with the default argument. *)
Definition CConfig_default (h : Host) (con : console) : outcome instance * console :=
  CConfig h "." con.

(** A method called on an object the caller holds. *)
Definition call {A} (m : M A) (obj : instance) (con : console)
  : outcome A * instance * console :=
  match m (mkWorld obj con) with
  | (r, w) => (r, self w, out w)
  end.

(** ** A POSIX host

    [posixpath] and a file system given by the list of its regular files,
    to run the module on. *)
Module Posix.

Definition slash : ascii := "/"%char.

(** [path.split('/')] *)
Fixpoint split (path : string) : list string :=
  match path with
  | EmptyString => [EmptyString]
  | String c r =>
      if Ascii.eqb c slash then EmptyString :: split r
      else match split r with
           | x :: t => String c x :: t
           | [] => [String c EmptyString]
           end
  end.

(** One round of the loop of [normpath]; [new_comps] is kept last
    component first. *)
Definition normpath_step (initial_slashes : nat) (new_comps : list string)
    (comp : string) : list string :=
  if String.eqb comp EmptyString || String.eqb comp "." then new_comps
  else if negb (String.eqb comp "..")
          || ((initial_slashes =? 0)%nat && match new_comps with [] => true | _ => false end)
          || match new_comps with
             | last :: _ => String.eqb last ".."
             | [] => false
             end
  then comp :: new_comps
  else match new_comps with
       | _ :: r => r
       | [] => []
       end.

(** [posixpath.normpath] *)
Definition normpath (path : string) : string :=
  if String.eqb path EmptyString then "."
  else
    let initial_slashes :=
      if String.prefix "/" path then
        if String.prefix "//" path && negb (String.prefix "///" path) then 2 else 1
      else 0 in
    let comps := rev (fold_left (normpath_step initial_slashes) (split path) []) in
    let path' := join "/" comps in
    let path'' :=
      match initial_slashes with
      | 0 => path'
      | 1 => "/" ++ path'
      | _ => "//" ++ path'
      end in
    if String.eqb path'' EmptyString then "." else path''.

Definition isabs (path : string) : bool := String.prefix "/" path.

Fixpoint ends_with_slash (s : string) : bool :=
  match s with
  | EmptyString => false
  | String c EmptyString => Ascii.eqb c slash
  | String _ r => ends_with_slash r
  end.

(** [posixpath.join(a, b)] *)
Definition join_path (a b : string) : string :=
  if String.prefix "/" b then b
  else if String.eqb a EmptyString || ends_with_slash a then a ++ b
  else a ++ "/" ++ b.

(** [posixpath.abspath], in the working directory [cwd] *)
Definition abspath (cwd path : string) : string :=
  normpath (if isabs path then path else join_path cwd path).

Fixpoint all_slashes (s : string) : bool :=
  match s with
  | EmptyString => true
  | String c r => Ascii.eqb c slash && all_slashes r
  end.

(** [head.rstrip('/')] *)
Fixpoint rstrip_slash (s : string) : string :=
  match s with
  | EmptyString => EmptyString
  | String c r =>
      match rstrip_slash r with
      | EmptyString => if Ascii.eqb c slash then EmptyString else String c EmptyString
      | r' => String c r'
      end
  end.

(** [p[: p.rfind('/') + 1]] *)
Fixpoint upto_last_slash (p : string) : string :=
  match p with
  | EmptyString => EmptyString
  | String c r =>
      if has_char slash r then String c (upto_last_slash r)
      else if Ascii.eqb c slash then String c EmptyString
      else EmptyString
  end.

(** [posixpath.dirname] *)
Definition dirname (p : string) : string :=
  let head := upto_last_slash p in
  if negb (String.eqb head EmptyString) && negb (all_slashes head)
  then rstrip_slash head else head.

(** [posixpath.expandvars] on the references of the form [${NAME}],
    with the environment [vars]; [name] is the name being read, if
    any.  An unset or unterminated reference is left as it is. *)
Fixpoint expand (vars : list (string * string)) (name : option string)
    (s : string) : string :=
  match name, s with
  | None, EmptyString => EmptyString
  | None, String "$" (String "{" r) => expand vars (Some EmptyString) r
  | None, String c r => String c (expand vars None r)
  | Some n, EmptyString => "${" ++ n
  | Some n, String "}" r =>
      match find (fun kv => String.eqb (fst kv) n) vars with
      | Some kv => snd kv ++ expand vars None r
      | None => "${" ++ n ++ "}" ++ expand vars None r
      end
  | Some n, String c r => expand vars (Some (n ++ String c EmptyString)) r
  end.

Definition expandvars (vars : list (string * string)) (s : string) : string :=
  expand vars None s.

(** [os.path.isfile], on a file system whose regular files are [files] *)
Definition isfile (files : list string) (p : string) : bool :=
  existsb (String.eqb p) files.

(** A machine whose [os.name] is posix and whose [platform.system()] is
    [system]. *)
Definition host (system executable version cwd : string)
    (vars : list (string * string)) (files : list string)
    (pandoc : outcome string) : Host :=
  mkHost "posix" system executable version
         dirname normpath (abspath cwd) (expandvars vars) (isfile files) pandoc.

End Posix.


(** ** What the platform branch computes *)

(** The local variables [SPHINXBUILD], [sLaTeXInterpreter],
    [sInstalledPackageFolder] and [sInstalledPackageDocFolder] when the
    platform branch (lines 137 to 152) is left, for the package name
    [pkg]; [None] on the branch that returns. *)
Record locals : Type := mkLocals {
  SPHINXBUILD : string;
  sLaTeXInterpreter : string;
  sInstalledPackageFolder : string;
  sInstalledPackageDocFolder : string
}.

Definition branch_locals (h : Host) (pkg : string) : option locals :=
  let sPythonPath := dirname h (sys_executable h) in
  if String.eqb (platform_system h) "Windows" then
    Some (mkLocals
            (sPythonPath ++ "/Scripts/sphinx-build.exe")
            (normpath h (expandvars h "%ROBOTLATEXPATH%/miktex/bin/x64/pdflatex.exe"))
            (sPythonPath ++ "/Lib/site-packages/" ++ pkg)
            (sPythonPath ++ "/Lib/site-packages/" ++ pkg ++ "_doc"))
  else if String.eqb (platform_system h) "Linux" then
    Some (mkLocals
            (sPythonPath ++ "/sphinx-build")
            (normpath h (expandvars h "${ROBOTLATEXPATH}/miktex/bin/x64/pdflatex"))
            (sPythonPath ++ "/../lib/python3.9/site-packages/" ++ pkg)
            (sPythonPath ++ "/../lib/python3.9/site-packages/" ++ pkg ++ "_doc"))
  else None.

Definition sPackageName : string := "RobotResults2DB".

(** The message of the branch that returns. *)
Definition unsupported_message (h : Host) : string :=
  "Operating system " ++ platform_system h ++ " (" ++ os_name h ++ ") not supported".

(** The entries [__init__] writes itself, for the reference path [R]. *)
Definition static_items (R : string) : dict :=
  [ ("sReferencePath", VStr R);
    ("sPackageName", VStr sPackageName);
    ("sVersion", VStr "1.0.0");
    ("sAuthor", VStr "Tran Duy Ngoan");
    ("sAuthorEMail", VStr "Ngoan.TranDuy@vn.bosch.com");
    ("sDescription",
     VStr "Package for importing robot result(s) to TestResultWebApp database");
    ("sLongDescriptionContentType", VStr "text/markdown");
    ("sURL",
     VStr "https://github.com/test-fullautomation/robotframework-testresultwebapptool");
    ("sProgrammingLanguage", VStr "Programming Language :: Python :: 3");
    ("sLicence", VStr "License :: OSI Approved :: Apache Software License");
    ("sOperatingSystem", VStr "Operating System :: OS Independent");
    ("sPythonRequires", VStr ">=3.0");
    ("sDevelopmentStatus", VStr "Development Status :: 4 - Beta");
    ("sIntendedAudience", VStr "Intended Audience :: Developers");
    ("sTopic", VStr "Topic :: Software Development");
    ("arInstallRequires", VList ["sphinx"; "pypandoc"; "colorama"]) ].

(** The entries a successful [__InitConfig] adds. *)
Definition resolved_items (h : Host) (R pandoc : string) (l : locals) : dict :=
  [ ("sPandoc", VStr pandoc);
    ("SPHINXBUILD", VStr (SPHINXBUILD l));
    ("sPython", VStr (sys_executable h));
    ("sLaTeXInterpreter",
     if isfile h (sLaTeXInterpreter l) then VStr (sLaTeXInterpreter l) else VNone);
    ("sInstalledPackageFolder", VStr (sInstalledPackageFolder l));
    ("sInstalledPackageDocFolder", VStr (sInstalledPackageDocFolder l));
    ("sDocumentationBuilder", VStr (normpath h (R ++ "/sphinx-makeall.py")));
    ("SOURCEDIR", VStr (normpath h (R ++ "/doc")));
    ("BUILDDIR", VStr (normpath h (normpath h (R ++ "/doc") ++ "/_build")));
    ("sHTMLOutputFolder",
     VStr (normpath h (normpath h (normpath h (R ++ "/doc") ++ "/_build") ++ "/html")));
    ("sReadMe_rst", VStr (normpath h (R ++ "/README.rst")));
    ("sReadMe_md", VStr (normpath h (R ++ "/README.md")));
    ("sSetupBuildFolder", VStr (normpath h (R ++ "/build")));
    ("sSetupBuildLibFolder", VStr (normpath h (R ++ "/build/lib")));
    ("sSetupBuildLibDocFolder",
     VStr (normpath h (R ++ "/build/lib/" ++ sPackageName ++ "_doc")));
    ("sSetupDistFolder", VStr (normpath h (R ++ "/dist")));
    ("sEggInfoFolder", VStr (normpath h (R ++ "/" ++ sPackageName ++ ".egg-info"))) ].

(** The line [PrintConfig] writes for one entry. *)
Definition line (kv : string * value) : stream * string :=
  (Stdout, (rjust nJust (fst kv) ++ " : " ++ str (snd kv)) ++ nl).

(** All that [PrintConfig] writes for the dictionary [d]. *)
Definition table (d : dict) : console :=
  (Stdout, nl) :: app (map line d) [(Stdout, nl)].

(** What the interpreter shows when [Get] does not know [sName]. *)
Definition complaint (sName : option string) : console :=
  [ (Stdout, nl);
    (Stderr,
     COLBR ++ "Error: " ++
       ("Error: Configuration parameter '" ++ fmt_name sName ++ "' not existing!")
       ++ "!" ++ nl);
    (Stdout, "Use instead one of:" ++ nl) ].

(** The outcome of [CConfig(sReferencePath)], case by case. *)
Definition construction (h : Host) (sReferencePath : string) (con : console)
  : outcome instance * console :=
  let R := normpath h (abspath h sReferencePath) in
  match get_pandoc_path h with
  | Raised ex => (Raised (PyExn "Exception" (str_exn ex)), con)
  | Returned pandoc =>
      match branch_locals h sPackageName with
      | None => (Raised (PyExn "Exception" (unsupported_message h)), con)
      | Some l =>
          if isfile h (SPHINXBUILD l) then
            let d := app (static_items R) (resolved_items h R pandoc l) in
            (Returned (mkInstance d R),
             app con
               (app [(Stdout, nl);
                     (Stdout,
                      ("Running under " ++ platform_system h ++ " (" ++ os_name h ++ ")")
                      ++ nl)]
                  (app (table d)
                     [(Stdout, COLBG ++ "Repository setup done" ++ nl); (Stdout, nl)])))
          else
            (Raised (PyExn "Exception" ("Missing Sphinx '" ++ SPHINXBUILD l ++ "'")), con)
      end
  end.

(** ** Sessions: calls made on a constructed object *)

(** A call of one of the two public methods. *)
Inductive request : Type :=
| ReqGet (sName : option string)
| ReqPrintConfig.

(** The call, with the value it returns ([None] for [PrintConfig]). *)
Definition serve (r : request) : M value :=
  match r with
  | ReqGet sName => Get sName
  | ReqPrintConfig => PrintConfig ;; ret VNone
  end.

(** The calls of [rs], one after the other. *)
Fixpoint session (rs : list request) : M (list value) :=
  match rs with
  | [] => ret []
  | r :: rest =>
      v <- serve r ;;
      vs <- session rest ;;
      ret (v :: vs)
  end.

(** ** Sample hosts *)

Module Sample.

Definition pandoc_missing : exn :=
  PyExn "OSError"
    "No pandoc was found: either install pandoc and add it to your PATH or or call pypandoc.download_pandoc(...) or install pypandoc wheels with included pandoc.".

Definition version : string := "3.11.2 (main, Mar 13 2023, 12:18:29) [GCC 12.2.0]".

(** Linux with pandoc and sphinx-build, no LaTeX. *)
Definition linux : Host :=
  Posix.host "Linux" "/usr/bin/python3" version "/home/dev" []
    ["/usr/bin/python3"; "/usr/bin/sphinx-build"; "/usr/bin/pandoc"]
    (Returned "/usr/bin/pandoc").

(** The same machine without sphinx-build. *)
Definition linux_without_sphinx : Host :=
  Posix.host "Linux" "/usr/bin/python3" version "/home/dev" []
    ["/usr/bin/python3"; "/usr/bin/pandoc"]
    (Returned "/usr/bin/pandoc").

(** The same machine without pandoc. *)
Definition linux_without_pandoc : Host :=
  Posix.host "Linux" "/usr/bin/python3" version "/home/dev" []
    ["/usr/bin/python3"; "/usr/bin/sphinx-build"]
    (Raised pandoc_missing).

(** macOS with pandoc. *)
Definition darwin : Host :=
  Posix.host "Darwin" "/usr/local/bin/python3" version "/Users/dev" []
    ["/usr/local/bin/python3"; "/usr/local/bin/sphinx-build"; "/usr/local/bin/pandoc"]
    (Returned "/usr/local/bin/pandoc").

(** macOS without pandoc. *)
Definition darwin_without_pandoc : Host :=
  Posix.host "Darwin" "/usr/local/bin/python3" version "/Users/dev" []
    ["/usr/local/bin/python3"; "/usr/local/bin/sphinx-build"]
    (Raised pandoc_missing).

End Sample.

(** The object a construction hands over, if any. *)
Definition the_object (r : outcome instance * console) : instance :=
  match fst r with
  | Returned obj => obj
  | Raised _ => blank
  end.

(** The host [h] with another [sys.version]. *)
Definition with_version (h : Host) (version : string) : Host :=
  mkHost (os_name h) (platform_system h) (sys_executable h) version
         (dirname h) (normpath h) (abspath h) (expandvars h) (isfile h)
         (get_pandoc_path h).


(** A dictionary as Python keeps it: no key twice. *)
Definition wf_dict (d : dict) : Prop := NoDup (keys d).

(** No string twice in [l]. *)
Fixpoint distinct (l : list string) : bool :=
  match l with
  | [] => true
  | x :: r => negb (existsb (String.eqb x) r) && distinct r
  end.

(** ** Vocabulary of the further properties *)

(** The keys of a constructed object, in the order they are written. *)
Definition constructed_keys : list string :=
  [ "sReferencePath"; "sPackageName"; "sVersion"; "sAuthor"; "sAuthorEMail";
    "sDescription"; "sLongDescriptionContentType"; "sURL"; "sProgrammingLanguage";
    "sLicence"; "sOperatingSystem"; "sPythonRequires"; "sDevelopmentStatus";
    "sIntendedAudience"; "sTopic"; "arInstallRequires"; "sPandoc"; "SPHINXBUILD";
    "sPython"; "sLaTeXInterpreter"; "sInstalledPackageFolder";
    "sInstalledPackageDocFolder"; "sDocumentationBuilder"; "SOURCEDIR"; "BUILDDIR";
    "sHTMLOutputFolder"; "sReadMe_rst"; "sReadMe_md"; "sSetupBuildFolder";
    "sSetupBuildLibFolder"; "sSetupBuildLibDocFolder"; "sSetupDistFolder";
    "sEggInfoFolder" ].

(** The texts written to the error stream, oldest first. *)
Definition is_stderr (e : stream * string) : bool :=
  match fst e with
  | Stderr => true
  | Stdout => false
  end.

Definition stderr_of (c : console) : list string := map snd (filter is_stderr c).

(** What a call returns on an object whose dictionary is [d]. *)
Definition answer (d : dict) (r : request) : value :=
  match r with
  | ReqGet (Some k) =>
      match dict_get k d with
      | Some v => v
      | None => VNone
      end
  | ReqGet None => VNone
  | ReqPrintConfig => VNone
  end.

(** ** Vocabulary of the path contract *)

(** A string without a slash. *)
Definition no_slash (s : string) : Prop := has_char Posix.slash s = false.


(** A component of a normalized path. *)
Definition component (c : string) : Prop := c <> EmptyString /\ no_slash c.


(** The two halves of [Posix.normpath]: the count of leading slashes, and
    the path written back from its components. *)
Definition initial_slashes (path : string) : nat :=
  if String.prefix "/" path then
    if String.prefix "//" path && negb (String.prefix "///" path) then 2 else 1
  else 0.


(** ** Vocabulary of the stored shapes *)





(** * Properties *)

(** ** The monad and the dictionary *)

Lemma dict_get_In (k : string) (v : value) (d : dict) :
  dict_get k d = Some v -> In (k, v) d.
Proof.
  induction d as [|[k' v'] r IH]; simpl; [discriminate|].
  destruct (String.eqb k k') eqn:E.
  - apply String.eqb_eq in E. intros [= ->]. subst. now left.
  - intros H. right. auto.
Qed.

Lemma In_dict_get (k : string) (v : value) (d : dict) :
  wf_dict d -> In (k, v) d -> dict_get k d = Some v.
Proof.
  unfold wf_dict.
  induction d as [|[k' v'] r IH]; simpl; [tauto|].
  intros Hnd [Heq|Hin].
  - injection Heq as -> ->. now rewrite String.eqb_refl.
  - inversion Hnd as [|? ? Hnotin Hnd']; subst.
    destruct (String.eqb k k') eqn:E.
    + apply String.eqb_eq in E. subst. exfalso. apply Hnotin.
      change k' with (fst (k', v)). now apply in_map.
    + auto.
Qed.

Lemma for_each_print (obj : instance) (l : dict) :
  (forall k v, In (k, v) l -> dict_get k (dictConfig obj) = Some v) ->
  forall c,
    for_each (keys l)
      (fun sKey => v <- get_item sKey ;; print (rjust nJust sKey ++ " : " ++ str v))
      (mkWorld obj c)
    = (Returned tt, mkWorld obj (app c (map line l))).
Proof.
  induction l as [|[k v] r IH]; intros Hl c; simpl.
  - unfold ret. now rewrite app_nil_r.
  - unfold bind at 1. unfold bind at 1. unfold get_item at 1. simpl.
    rewrite (Hl k v) by (now left).
    unfold print, write. simpl.
    rewrite IH by (intros; apply Hl; now right).
    now rewrite <- app_assoc.
Qed.

Lemma PrintConfig_run (obj : instance) (c : console) :
  wf_dict (dictConfig obj) ->
  PrintConfig (mkWorld obj c) = (Returned tt, mkWorld obj (app c (table (dictConfig obj)))).
Proof.
  intros Hwf. unfold PrintConfig, print_empty, get_dict, write, bind. simpl.
  rewrite for_each_print by (intros; now apply In_dict_get).
  simpl. unfold table. rewrite <- !app_assoc. reflexivity.
Qed.

Lemma distinct_NoDup (l : list string) : distinct l = true -> NoDup l.
Proof.
  induction l as [|x r IH]; simpl; intros H; constructor.
  - apply andb_prop in H as [H _]. intros Hin.
    apply negb_true_iff in H. apply (proj2 (not_true_iff_false _) H).
    apply existsb_exists. exists x. split; [assumption | apply String.eqb_refl].
  - apply IH. now apply andb_prop in H as [_ H].
Qed.

(** ** Construction, in closed form *)

Lemma static_resolved_wf (h : Host) (R pandoc : string) (l : locals) :
  wf_dict (app (static_items R) (resolved_items h R pandoc l)).
Proof. apply distinct_NoDup. reflexivity. Qed.

Lemma InitConfig_tail_run (h : Host) (l : locals) (R pandoc : string) (c : console) :
  isfile h (SPHINXBUILD l) = true ->
  let d := app (static_items R) (resolved_items h R pandoc l) in
  InitConfig_tail h (os_name h) (platform_system h) (sys_executable h)
    (SPHINXBUILD l) (sLaTeXInterpreter l)
    (sInstalledPackageFolder l) (sInstalledPackageDocFolder l)
    (mkWorld (mkInstance (app (static_items R) [("sPandoc", VStr pandoc)]) R) c)
  = (Returned (true, "Repository setup done"),
     mkWorld (mkInstance d R)
       (app c
          (app [(Stdout, nl);
                (Stdout,
                 ("Running under " ++ platform_system h ++ " (" ++ os_name h ++ ")")
                 ++ nl)]
             (table d)))).
Proof.
  intros HS d. unfold InitConfig_tail. rewrite HS.
  cbn -[PrintConfig append].
  unfold bind at 1.
  rewrite PrintConfig_run; cbn [self dictConfig out].
  - unfold ret, d, resolved_items.
    destruct (isfile h (sLaTeXInterpreter l)); cbn [negb app static_items];
      rewrite <- !app_assoc; reflexivity.
  - destruct (isfile h (sLaTeXInterpreter l)); cbn [negb];
      apply distinct_NoDup; reflexivity.
Qed.

Ltac run_prefix :=
  cbn -[InitConfig_tail append PrintConfig];
  unfold bind, try_except, call_host, set_item, get_item_str, get_item, ret;
  cbn -[InitConfig_tail append PrintConfig table resolved_items].

Ltac run_tail l R pandoc con ES :=
  let Hrun := fresh "Hrun" in
  pose proof (InitConfig_tail_run _ l R pandoc con ES) as Hrun;
  cbn -[append table resolved_items isfile InitConfig_tail] in Hrun;
  unfold sPackageName in Hrun; rewrite Hrun;
  cbn -[append table resolved_items isfile];
  rewrite <- !app_assoc; reflexivity.

Theorem CConfig_run (h : Host) (sReferencePath : string) (con : console) :
  CConfig h sReferencePath con = construction h sReferencePath con.
Proof.
  unfold CConfig, construction, branch_locals, init, InitConfig.
  destruct (get_pandoc_path h) as [pandoc|ex] eqn:EP.
  2: reflexivity.
  destruct (String.eqb (platform_system h) "Windows") eqn:EW;
    [| destruct (String.eqb (platform_system h) "Linux") eqn:EL ].
  - cbn [SPHINXBUILD].
    destruct (isfile h (dirname h (sys_executable h) ++ "/Scripts/sphinx-build.exe")) eqn:ES.
    + run_prefix.
      match goal with
      | |- context [InitConfig_tail _ _ _ _ ?a ?b ?c ?d] =>
          run_tail (mkLocals a b c d) (normpath h (abspath h sReferencePath)) pandoc con ES
      end.
    + cbn -[InitConfig_tail append]. unfold InitConfig_tail. rewrite ES. reflexivity.
  - cbn [SPHINXBUILD].
    destruct (isfile h (dirname h (sys_executable h) ++ "/sphinx-build")) eqn:ES.
    + run_prefix.
      match goal with
      | |- context [InitConfig_tail _ _ _ _ ?a ?b ?c ?d] =>
          run_tail (mkLocals a b c d) (normpath h (abspath h sReferencePath)) pandoc con ES
      end.
    + cbn -[InitConfig_tail append]. unfold InitConfig_tail. rewrite ES. reflexivity.
  - reflexivity.
Qed.

(** A successful construction, read backwards. *)
Lemma CConfig_returned (h : Host) (arg : string) (con con' : console) (obj : instance) :
  CConfig h arg con = (Returned obj, con') ->
  exists pandoc l,
    get_pandoc_path h = Returned pandoc /\
    branch_locals h sPackageName = Some l /\
    isfile h (SPHINXBUILD l) = true /\
    obj = mkInstance
            (app (static_items (normpath h (abspath h arg)))
                 (resolved_items h (normpath h (abspath h arg)) pandoc l))
            (normpath h (abspath h arg)).
Proof.
  rewrite CConfig_run. unfold construction.
  destruct (get_pandoc_path h) as [pandoc|ex]; [|discriminate].
  destruct (branch_locals h sPackageName) as [l|]; [|discriminate].
  destruct (isfile h (SPHINXBUILD l)) eqn:ES; [|discriminate].
  intros [= <- _]. exists pandoc, l. auto.
Qed.

Lemma CConfig_wf (h : Host) (arg : string) (con con' : console) (obj : instance) :
  CConfig h arg con = (Returned obj, con') -> wf_dict (dictConfig obj).
Proof.
  intros H. apply CConfig_returned in H as (pandoc & l & _ & _ & _ & ->).
  apply static_resolved_wf.
Qed.

(** ** Lookup *)

Lemma Get_known (obj : instance) (c : console) (k : string) (v : value) :
  dict_get k (dictConfig obj) = Some v ->
  call (Get (Some k)) obj c = (Returned v, obj, c).
Proof.
  intros H. unfold call, Get, bind, get_dict, name_unknown, dict_mem,
    get_item_named, get_item. cbn [self dictConfig out].
  rewrite H. cbn [negb self dictConfig]. rewrite H. reflexivity.
Qed.

Lemma Get_unknown (obj : instance) (c : console) (sName : option string) :
  wf_dict (dictConfig obj) ->
  name_unknown sName (dictConfig obj) = true ->
  call (Get sName) obj c
  = (Returned VNone, obj, app c (app (complaint sName) (table (dictConfig obj)))).
Proof.
  intros Hwf H. unfold call, Get. unfold bind at 1. unfold get_dict.
  cbn [self dictConfig out]. rewrite H.
  unfold print_empty, printerror, print, write, bind. cbn [self out].
  rewrite PrintConfig_run by assumption.
  unfold ret, complaint. cbn [self out]. rewrite <- !app_assoc. reflexivity.
Qed.

(** ** Text search *)

Lemma prefix_app (s t : string) : String.prefix s (s ++ t) = true.
Proof.
  induction s as [|a s IH]; simpl; [now destruct t|].
  destruct (ascii_dec a a); [assumption | congruence].
Qed.

Lemma contains_prefix (s t : string) : String.prefix s t = true -> contains s t = true.
Proof. intros H. destruct t; cbn [contains]; rewrite H; reflexivity. Qed.

Lemma contains_middle (a s b : string) : contains s (a ++ s ++ b) = true.
Proof.
  induction a as [|c a IH].
  - change (contains s (s ++ b) = true). apply contains_prefix, prefix_app.
  - cbn [append contains]. rewrite IH. apply orb_true_r.
Qed.

Lemma contains_self (s : string) : contains s s = true.
Proof.
  apply contains_prefix. destruct s as [|a s]; [reflexivity|].
  pose proof (prefix_app (String a s) EmptyString) as H.
  replace (String a s ++ EmptyString) with (String a s) in H; [assumption|].
  clear H. generalize (String a s). intros t.
  induction t as [|c t IH]; simpl; [reflexivity | now rewrite <- IH].
Qed.

Lemma name_unknown_dec (sName : option string) (d : dict) :
  name_unknown sName d = true \/
  exists k v, sName = Some k /\ dict_get k d = Some v.
Proof.
  destruct sName as [k|]; [|now left].
  unfold name_unknown, dict_mem.
  destruct (dict_get k d) as [v|] eqn:E; [right; eauto | now left].
Qed.

Lemma serve_keeps (obj : instance) (r : request) (c : console) :
  wf_dict (dictConfig obj) ->
  exists v c', serve r (mkWorld obj c) = (Returned v, mkWorld obj c').
Proof.
  intros Hwf. destruct r as [sName|]; cbn [serve].
  - destruct (name_unknown_dec sName (dictConfig obj)) as [Hu|(k & v & -> & Hk)].
    + pose proof (Get_unknown obj c sName Hwf Hu) as H. unfold call in H.
      destruct (Get sName (mkWorld obj c)) as [o [obj' c']].
      cbn [self out] in H. injection H as -> -> ->. eauto.
    + pose proof (Get_known obj c k v Hk) as H. unfold call in H.
      destruct (Get (Some k) (mkWorld obj c)) as [o [obj' c']].
      cbn [self out] in H. injection H as -> -> ->. eauto.
  - unfold bind. rewrite PrintConfig_run by assumption. unfold ret. eauto.
Qed.

Lemma session_keeps (obj : instance) (rs : list request) :
  wf_dict (dictConfig obj) ->
  forall c, exists vs c', session rs (mkWorld obj c) = (Returned vs, mkWorld obj c').
Proof.
  intros Hwf. induction rs as [|r rest IH]; intros c; cbn [session].
  - unfold ret. eauto.
  - destruct (serve_keeps obj r c Hwf) as (v & c1 & Hr).
    destruct (IH c1) as (vs & c2 & Hs).
    unfold bind. rewrite Hr, Hs. unfold ret. eauto.
Qed.

Lemma dict_mem_keys (k : string) (d : dict) :
  dict_mem k d = false <-> ~ In k (keys d).
Proof.
  unfold dict_mem, keys. induction d as [|[k' v'] r IH]; simpl.
  - tauto.
  - destruct (String.eqb k k') eqn:E.
    + apply String.eqb_eq in E. subst. split; [discriminate | intros H; exfalso; auto].
    + apply String.eqb_neq in E. rewrite IH. split.
      * intros H [H1|H1]; [congruence | auto].
      * intros H H1. apply H. now right.
Qed.

(** ** The documentation directories *)

(** C1: after a successful construction from the argument [arg], with
    R the normalized absolute form of [arg], the object keeps R as its
    reference path, the entry SOURCEDIR is [normpath (R + "/doc")] and the
    entry BUILDDIR is [normpath (SOURCEDIR + "/_build")]. *)
Theorem C1_source_and_build_dir (h : Host) (arg : string) (con con' : console)
    (obj : instance) :
  CConfig h arg con = (Returned obj, con') ->
  let R := normpath h (abspath h arg) in
  let SOURCEDIR := normpath h (R ++ "/doc") in
  sReferencePath obj = R /\
  dict_get "SOURCEDIR" (dictConfig obj) = Some (VStr SOURCEDIR) /\
  dict_get "BUILDDIR" (dictConfig obj) = Some (VStr (normpath h (SOURCEDIR ++ "/_build"))).
Proof.
  intros H R SOURCEDIR.
  apply CConfig_returned in H as (pandoc & l & _ & _ & _ & ->).
  split; [reflexivity|]. split; reflexivity.
Qed.

Lemma C1_source_and_build_dir_witness :
  let h := Sample.linux in
  let obj := the_object (CConfig h "/repo" []) in
  let R := normpath h (abspath h "/repo") in
  let SOURCEDIR := normpath h (R ++ "/doc") in
  sReferencePath obj = R /\
  dict_get "SOURCEDIR" (dictConfig obj) = Some (VStr SOURCEDIR) /\
  dict_get "BUILDDIR" (dictConfig obj) = Some (VStr (normpath h (SOURCEDIR ++ "/_build"))).
Proof.
  intros h obj.
  apply (C1_source_and_build_dir h "/repo" [] (snd (CConfig h "/repo" [])) obj).
  vm_compute. reflexivity.
Defined.

(** ** The POSIX host keeps the contract of [os.path] *)















Lemma component_head (c : string) :
  component c -> exists a r, c = String a r /\ Ascii.eqb Posix.slash a = false.
Proof.
  intros [H1 H2]. destruct c as [|a r]; [congruence|].
  exists a, r. split; [reflexivity|].
  unfold no_slash in H2. cbn [has_char] in H2. now apply orb_false_elim in H2.
Qed.



Lemma join_cons_head (x : string) (r : list string) :
  exists t, join "/" (x :: r) = x ++ t.
Proof.
  destruct r as [|y r'].
  - exists EmptyString. cbn [join]. induction x as [|a x IH]; [reflexivity|].
    cbn [append]. now rewrite <- IH.
  - eexists. reflexivity.
Qed.


Lemma join_empty (l : list string) :
  Forall component l -> join "/" l = EmptyString -> l = [].
Proof.
  intros H E. destruct l as [|x r]; [reflexivity|].
  inversion H as [|? ? Hx _]; subst.
  destruct (component_head x Hx) as (a & x' & -> & _).
  destruct (join_cons_head (String a x') r) as (t & Ht).
  rewrite Ht in E. discriminate E.
Qed.








(** ** The shape of the stored values *)





(** ** Failures of the construction *)

(** C3, as stated, fails: on macOS without pandoc the failure reported is
    pandoc's, not the unsupported-platform one. *)
Lemma C3_order_counterexample :
  platform_system Sample.darwin_without_pandoc = "Darwin" /\
  CConfig Sample.darwin_without_pandoc "/repo" []
  = (Raised (PyExn "Exception" (str_exn Sample.pandoc_missing)), []) /\
  String.eqb (str_exn Sample.pandoc_missing)
             (unsupported_message Sample.darwin_without_pandoc) = false.
Proof. vm_compute. repeat split. Qed.

(** C3, amended: the conversion tool is looked for first and the platform
    is tested after it.  On a platform other than Windows and Linux the
    construction fails without writing anything; the failure is the
    tool's own when its discovery fails, and the unsupported-platform one
    only when the tool has been found. *)
Theorem C3_tool_before_platform (h : Host) (arg : string) (con : console) :
  platform_system h <> "Windows" ->
  platform_system h <> "Linux" ->
  CConfig h arg con
  = (Raised (PyExn "Exception"
               match get_pandoc_path h with
               | Raised ex => str_exn ex
               | Returned _ => unsupported_message h
               end),
     con).
Proof.
  intros HW HL. rewrite CConfig_run. unfold construction, branch_locals.
  apply String.eqb_neq in HW, HL. rewrite HW, HL.
  destruct (get_pandoc_path h); reflexivity.
Qed.

Lemma C3_tool_before_platform_witness :
  let h := Sample.darwin in
  CConfig h "/repo" []
  = (Raised (PyExn "Exception"
               match get_pandoc_path h with
               | Raised ex => str_exn ex
               | Returned _ => unsupported_message h
               end),
     []).
Proof.
  intros h. apply (C3_tool_before_platform h "/repo" []); vm_compute; discriminate.
Defined.

(** C4, as stated, fails: on macOS without pandoc the construction raises,
    but the message is pandoc's and does not name the platform. *)
Lemma C4_unsupported_platform_counterexample :
  String.eqb (platform_system Sample.darwin_without_pandoc) "Windows" = false /\
  String.eqb (platform_system Sample.darwin_without_pandoc) "Linux" = false /\
  exists ex,
    CConfig Sample.darwin_without_pandoc "." [] = (Raised ex, []) /\
    contains (platform_system Sample.darwin_without_pandoc) (str_exn ex) = false.
Proof.
  split; [reflexivity|]. split; [reflexivity|].
  exists (PyExn "Exception" (str_exn Sample.pandoc_missing)).
  vm_compute. split; reflexivity.
Qed.

(** C4, amended: on every platform other than Windows and Linux the
    construction raises and hands over no object; when the conversion tool
    has been found, the message is the unsupported-platform one and names
    the platform. *)
Theorem C4_unsupported_platform (h : Host) (arg : string) (con : console) :
  platform_system h <> "Windows" ->
  platform_system h <> "Linux" ->
  exists ex,
    CConfig h arg con = (Raised ex, con) /\
    (forall pandoc, get_pandoc_path h = Returned pandoc ->
       str_exn ex
       = "Operating system " ++ platform_system h ++ " (" ++ os_name h ++ ") not supported"
       /\ contains (platform_system h) (str_exn ex) = true).
Proof.
  intros HW HL. rewrite CConfig_run. unfold construction, branch_locals.
  apply String.eqb_neq in HW, HL. rewrite HW, HL.
  destruct (get_pandoc_path h) as [pandoc|ex].
  - eexists. split; [reflexivity|]. intros _ _. split; [reflexivity|].
    cbn [str_exn]. unfold unsupported_message. apply contains_middle.
  - eexists. split; [reflexivity|]. discriminate.
Qed.

Lemma C4_unsupported_platform_witness :
  let h := Sample.darwin in
  exists ex,
    CConfig h "/repo" [] = (Raised ex, []) /\
    (forall pandoc, get_pandoc_path h = Returned pandoc ->
       str_exn ex
       = "Operating system " ++ platform_system h ++ " (" ++ os_name h ++ ") not supported"
       /\ contains (platform_system h) (str_exn ex) = true).
Proof.
  intros h. apply (C4_unsupported_platform h "/repo" []); vm_compute; discriminate.
Defined.

(** C5: when the discovery of the conversion tool raises, the construction
    raises, writes nothing, and its message is the text of the tool's
    exception. *)
Theorem C5_tool_failure (h : Host) (arg : string) (con : console) (ex : exn) :
  get_pandoc_path h = Raised ex ->
  exists e,
    CConfig h arg con = (Raised e, con) /\
    str_exn e = str_exn ex /\
    contains (str_exn ex) (str_exn e) = true.
Proof.
  intros H. rewrite CConfig_run. unfold construction. rewrite H.
  eexists. split; [reflexivity|]. split; [reflexivity|]. apply contains_self.
Qed.

Lemma C5_tool_failure_witness :
  let h := Sample.linux_without_pandoc in
  exists e,
    CConfig h "/repo" [] = (Raised e, []) /\
    str_exn e = str_exn Sample.pandoc_missing /\
    contains (str_exn Sample.pandoc_missing) (str_exn e) = true.
Proof.
  intros h. apply (C5_tool_failure h "/repo" [] Sample.pandoc_missing). reflexivity.
Defined.

(** C6: when the conversion tool has been found, the platform is Windows
    or Linux and the path computed for sphinx-build is not an existing
    file, the construction raises, writes nothing, and its message quotes
    that path. *)
Theorem C6_missing_sphinx (h : Host) (arg : string) (con : console)
    (pandoc : string) (l : locals) :
  get_pandoc_path h = Returned pandoc ->
  branch_locals h sPackageName = Some l ->
  isfile h (SPHINXBUILD l) = false ->
  exists e,
    CConfig h arg con = (Raised e, con) /\
    str_exn e = "Missing Sphinx '" ++ SPHINXBUILD l ++ "'" /\
    contains (SPHINXBUILD l) (str_exn e) = true.
Proof.
  intros HP HB HS. rewrite CConfig_run. unfold construction.
  rewrite HP, HB, HS. eexists. split; [reflexivity|]. split; [reflexivity|].
  cbn [str_exn]. apply contains_middle.
Qed.

Lemma C6_missing_sphinx_witness :
  let h := Sample.linux_without_sphinx in
  let l := mkLocals "/usr/bin/sphinx-build" "${ROBOTLATEXPATH}/miktex/bin/x64/pdflatex"
             "/usr/bin/../lib/python3.9/site-packages/RobotResults2DB"
             "/usr/bin/../lib/python3.9/site-packages/RobotResults2DB_doc" in
  exists e,
    CConfig h "/repo" [] = (Raised e, []) /\
    str_exn e = "Missing Sphinx '" ++ SPHINXBUILD l ++ "'" /\
    contains (SPHINXBUILD l) (str_exn e) = true.
Proof.
  intros h l.
  apply (C6_missing_sphinx h "/repo" [] "/usr/bin/pandoc" l); vm_compute; reflexivity.
Defined.

(** ** The optional LaTeX interpreter *)

(** C7: when the conversion tool and sphinx-build are there and the path
    computed for the LaTeX interpreter is not an existing file, the
    construction returns an object; its entry sLaTeXInterpreter exists and
    holds [None], and [Get] returns that [None] without writing a
    complaint. *)
Theorem C7_optional_latex (h : Host) (arg : string) (con : console)
    (pandoc : string) (l : locals) :
  get_pandoc_path h = Returned pandoc ->
  branch_locals h sPackageName = Some l ->
  isfile h (SPHINXBUILD l) = true ->
  isfile h (sLaTeXInterpreter l) = false ->
  exists obj con',
    CConfig h arg con = (Returned obj, con') /\
    dict_get "sLaTeXInterpreter" (dictConfig obj) = Some VNone /\
    name_unknown (Some "sLaTeXInterpreter") (dictConfig obj) = false /\
    forall c, call (Get (Some "sLaTeXInterpreter")) obj c = (Returned VNone, obj, c).
Proof.
  intros HP HB HS HL. rewrite CConfig_run. unfold construction.
  rewrite HP, HB, HS. eexists. eexists. split; [reflexivity|].
  assert (Hget : dict_get "sLaTeXInterpreter"
                   (app (static_items (normpath h (abspath h arg)))
                        (resolved_items h (normpath h (abspath h arg)) pandoc l))
                 = Some VNone).
  { cbn -[isfile]. rewrite HL. reflexivity. }
  cbn [dictConfig]. split; [exact Hget|]. split.
  - unfold name_unknown, dict_mem. now rewrite Hget.
  - intros c. now apply Get_known.
Qed.

Lemma C7_optional_latex_witness :
  let h := Sample.linux in
  exists obj con',
    CConfig h "/repo" [] = (Returned obj, con') /\
    dict_get "sLaTeXInterpreter" (dictConfig obj) = Some VNone /\
    name_unknown (Some "sLaTeXInterpreter") (dictConfig obj) = false /\
    forall c, call (Get (Some "sLaTeXInterpreter")) obj c = (Returned VNone, obj, c).
Proof.
  intros h.
  apply (C7_optional_latex h "/repo" [] "/usr/bin/pandoc"
           (mkLocals "/usr/bin/sphinx-build" "${ROBOTLATEXPATH}/miktex/bin/x64/pdflatex"
              "/usr/bin/../lib/python3.9/site-packages/RobotResults2DB"
              "/usr/bin/../lib/python3.9/site-packages/RobotResults2DB_doc"));
    vm_compute; reflexivity.
Defined.

(** ** Lookup on a constructed object *)

(** C8: on a constructed object, when no name is given or the name is
    not a key of the dictionary, [Get] returns [None] and does not raise;
    it writes an empty line to standard output, the error to the error
    stream, and then, to standard output, the hint and one line for every
    entry of the dictionary. *)
Theorem C8_unknown_name (h : Host) (arg : string) (con con' : console)
    (obj : instance) (sName : option string) (c : console) :
  CConfig h arg con = (Returned obj, con') ->
  (sName = None \/ exists k, sName = Some k /\ ~ In k (keys (dictConfig obj))) ->
  call (Get sName) obj c
  = (Returned VNone, obj, app c (app (complaint sName) (table (dictConfig obj)))).
Proof.
  intros H Hname. apply Get_unknown.
  - eapply CConfig_wf, H.
  - destruct Hname as [->|(k & -> & Hk)]; [reflexivity|].
    cbn [name_unknown]. apply dict_mem_keys in Hk. now rewrite Hk.
Qed.

Lemma C8_unknown_name_witness :
  let h := Sample.linux in
  let obj := the_object (CConfig h "/repo" []) in
  call (Get (Some "sSphinx")) obj []
  = (Returned VNone, obj,
     app [] (app (complaint (Some "sSphinx")) (table (dictConfig obj)))).
Proof.
  intros h obj.
  apply (C8_unknown_name h "/repo" [] (snd (CConfig h "/repo" [])) obj (Some "sSphinx") []).
  - vm_compute. reflexivity.
  - right. exists "sSphinx". split; [reflexivity|].
    vm_compute. intros H.
    repeat (destruct H as [H|H]; [discriminate H|]). exact H.
Defined.

(** C9: on a constructed object, after any sequence of calls of [Get] and
    [PrintConfig], none of which raises, the object is the one the
    constructor returned, and [Get] of a key of the dictionary returns the
    value stored at construction and writes nothing. *)
Theorem C9_read_only (h : Host) (arg : string) (con con' : console)
    (obj : instance) (rs : list request) (c : console) (k : string) (v : value) :
  CConfig h arg con = (Returned obj, con') ->
  dict_get k (dictConfig obj) = Some v ->
  exists vs c',
    call (session rs) obj c = (Returned vs, obj, c') /\
    call (session rs ;; Get (Some k)) obj c = (Returned v, obj, c').
Proof.
  intros H Hk. apply CConfig_wf in H.
  destruct (session_keeps obj rs H c) as (vs & c' & Hs).
  exists vs, c'. unfold call, bind. rewrite Hs. cbn [self out]. split; [reflexivity|].
  pose proof (Get_known obj c' k v Hk) as HG. unfold call in HG.
  destruct (Get (Some k) (mkWorld obj c')) as [o w].
  injection HG as -> <- <-. now destruct w.
Qed.

Lemma C9_read_only_witness :
  let h := Sample.linux in
  let obj := the_object (CConfig h "/repo" []) in
  let rs := [ReqGet (Some "SOURCEDIR"); ReqPrintConfig; ReqGet None; ReqGet (Some "x")] in
  exists vs c',
    call (session rs) obj [] = (Returned vs, obj, c') /\
    call (session rs ;; Get (Some "BUILDDIR")) obj []
    = (Returned (VStr "/repo/doc/_build"), obj, c').
Proof.
  intros h obj rs.
  apply (C9_read_only h "/repo" [] (snd (CConfig h "/repo" [])) obj rs []
           "BUILDDIR" (VStr "/repo/doc/_build")); vm_compute; reflexivity.
Defined.

(** ** The installed-package directories *)

(** C10: on Linux, after a successful construction, the two
    installed-package entries are the directory of the interpreter
    followed by /../lib/python3.9/site-packages/ and the package name
    (with _doc for the second); [sys.version] plays no part: the same
    construction on a host that differs only in it gives the same
    result. *)
Theorem C10_linux_site_packages (h : Host) (arg : string) (con con' : console)
    (obj : instance) :
  platform_system h = "Linux" ->
  CConfig h arg con = (Returned obj, con') ->
  dict_get "sInstalledPackageFolder" (dictConfig obj)
  = Some (VStr (dirname h (sys_executable h)
                ++ "/../lib/python3.9/site-packages/" ++ "RobotResults2DB")) /\
  dict_get "sInstalledPackageDocFolder" (dictConfig obj)
  = Some (VStr (dirname h (sys_executable h)
                ++ "/../lib/python3.9/site-packages/" ++ "RobotResults2DB" ++ "_doc")) /\
  forall version, CConfig (with_version h version) arg con = (Returned obj, con').
Proof.
  intros HL H. split; [|split].
  - apply CConfig_returned in H as (pandoc & l & _ & HB & _ & ->).
    unfold branch_locals in HB. rewrite HL in HB. cbn [String.eqb Ascii.eqb Bool.eqb] in HB.
    injection HB as <-. reflexivity.
  - apply CConfig_returned in H as (pandoc & l & _ & HB & _ & ->).
    unfold branch_locals in HB. rewrite HL in HB. cbn [String.eqb Ascii.eqb Bool.eqb] in HB.
    injection HB as <-. reflexivity.
  - intros version. rewrite <- H. rewrite !CConfig_run.
    destruct h. reflexivity.
Qed.

Lemma C10_linux_site_packages_witness :
  let h := Sample.linux in
  let obj := the_object (CConfig h "/repo" []) in
  dict_get "sInstalledPackageFolder" (dictConfig obj)
  = Some (VStr (dirname h (sys_executable h)
                ++ "/../lib/python3.9/site-packages/" ++ "RobotResults2DB")) /\
  dict_get "sInstalledPackageDocFolder" (dictConfig obj)
  = Some (VStr (dirname h (sys_executable h)
                ++ "/../lib/python3.9/site-packages/" ++ "RobotResults2DB" ++ "_doc")) /\
  forall version,
    CConfig (with_version h version) "/repo" []
    = (Returned obj, snd (CConfig h "/repo" [])).
Proof.
  intros h obj.
  apply (C10_linux_site_packages h "/repo" [] (snd (CConfig h "/repo" [])) obj).
  - reflexivity.
  - vm_compute. reflexivity.
Defined.

(** * Further properties *)

(** ** Auxiliary facts *)

Lemma append_assoc' (a b c : string) : (a ++ b) ++ c = a ++ b ++ c.
Proof. induction a as [|x a IH]; simpl; [reflexivity | now rewrite IH]. Qed.

Lemma spaces_length (n : nat) : String.length (spaces n) = n.
Proof. induction n; simpl; congruence. Qed.

Lemma append_length (a b : string) :
  String.length (a ++ b) = String.length a + String.length b.
Proof. induction a as [|x a IH]; simpl; [reflexivity | now rewrite IH]. Qed.

Lemma rjust_length (n : nat) (s : string) :
  String.length (rjust n s) = Nat.max n (String.length s).
Proof. unfold rjust. rewrite append_length, spaces_length. lia. Qed.

Lemma stderr_of_app (a b : console) : stderr_of (app a b) = app (stderr_of a) (stderr_of b).
Proof. unfold stderr_of. now rewrite filter_app, map_app. Qed.

Lemma stderr_of_table (d : dict) : stderr_of (table d) = [].
Proof.
  unfold table, stderr_of. cbn [filter is_stderr fst].
  rewrite filter_app. cbn [filter is_stderr fst app].
  rewrite app_nil_r. induction d as [|kv d IH]; [reflexivity|]. exact IH.
Qed.

Lemma table_length (d : dict) : List.length (table d) = List.length d + 2.
Proof. unfold table. cbn [List.length]. rewrite length_app, length_map. simpl. lia. Qed.

Lemma app_eq_self {A} (c x : list A) : app c x = c -> x = [].
Proof.
  intros H. apply (f_equal (@List.length A)) in H. rewrite length_app in H.
  destruct x; [reflexivity | simpl in H; lia].
Qed.

Lemma serve_answer (obj : instance) (r : request) (c : console) :
  wf_dict (dictConfig obj) ->
  exists c', serve r (mkWorld obj c) = (Returned (answer (dictConfig obj) r), mkWorld obj c')
             /\ List.length c <= List.length c'.
Proof.
  intros Hwf. destruct r as [sName|]; cbn [serve answer].
  - destruct (name_unknown_dec sName (dictConfig obj)) as [Hu|(k & v & -> & Hk)].
    + pose proof (Get_unknown obj c sName Hwf Hu) as H. unfold call in H.
      destruct (Get sName (mkWorld obj c)) as [o [obj' c']].
      cbn [self out] in H. injection H as -> -> ->.
      eexists. split.
      * destruct sName as [k|]; [|reflexivity].
        unfold name_unknown, dict_mem in Hu.
        destruct (dict_get k (dictConfig obj)); [discriminate | reflexivity].
      * rewrite length_app. lia.
    + pose proof (Get_known obj c k v Hk) as H. unfold call in H.
      destruct (Get (Some k) (mkWorld obj c)) as [o [obj' c']].
      cbn [self out] in H. injection H as -> -> ->.
      rewrite Hk. eauto.
  - unfold bind. rewrite PrintConfig_run by assumption. unfold ret.
    eexists. split; [reflexivity|]. rewrite length_app. lia.
Qed.

(** ** When and how the construction fails *)

(** X1: the construction returns an object only if the conversion tool
    has been found and the platform is Windows with an existing
    Scripts/sphinx-build.exe beside the interpreter, or Linux with an
    existing sphinx-build beside it. *)
Theorem X1_construction_prerequisites (h : Host) (arg : string) (con con' : console)
    (obj : instance) :
  CConfig h arg con = (Returned obj, con') ->
  (exists pandoc, get_pandoc_path h = Returned pandoc) /\
  ((platform_system h = "Windows" /\
    isfile h (dirname h (sys_executable h) ++ "/Scripts/sphinx-build.exe") = true) \/
   (platform_system h = "Linux" /\
    isfile h (dirname h (sys_executable h) ++ "/sphinx-build") = true)).
Proof.
  rewrite CConfig_run. unfold construction, branch_locals. intros H.
  destruct (get_pandoc_path h) as [pandoc|ex]; [|discriminate].
  split; [eauto|].
  destruct (String.eqb (platform_system h) "Windows") eqn:EW.
  - apply String.eqb_eq in EW. left. split; [assumption|].
    cbn [SPHINXBUILD] in H.
    destruct (isfile h _); [reflexivity | discriminate].
  - destruct (String.eqb (platform_system h) "Linux") eqn:EL; [|discriminate].
    apply String.eqb_eq in EL. right. split; [assumption|].
    cbn [SPHINXBUILD] in H.
    destruct (isfile h _); [reflexivity | discriminate].
Qed.

Lemma X1_construction_prerequisites_witness :
  let h := Sample.linux in
  (exists pandoc, get_pandoc_path h = Returned pandoc) /\
  ((platform_system h = "Windows" /\
    isfile h (dirname h (sys_executable h) ++ "/Scripts/sphinx-build.exe") = true) \/
   (platform_system h = "Linux" /\
    isfile h (dirname h (sys_executable h) ++ "/sphinx-build") = true)).
Proof.
  intros h.
  apply (X1_construction_prerequisites h "/repo" [] (snd (CConfig h "/repo" []))
           (the_object (CConfig h "/repo" []))).
  vm_compute. reflexivity.
Defined.

(** X2: when the construction ends in the [Exception] that [__init__]
    raises after a failed [__InitConfig] (line 108), nothing has been
    written, and the message is the text of the tool's exception, the
    unsupported-platform message, or the missing-Sphinx message with the
    path that was tested; [__InitConfig] reports no other failure. *)
Theorem X2_construction_failure (h : Host) (arg : string) (con con' : console)
    (msg : string) :
  CConfig h arg con = (Raised (PyExn "Exception" msg), con') ->
  con' = con /\
  ((exists ex, get_pandoc_path h = Raised ex /\ msg = str_exn ex) \/
   (platform_system h <> "Windows" /\ platform_system h <> "Linux" /\
    msg = "Operating system " ++ platform_system h ++ " (" ++ os_name h
          ++ ") not supported") \/
   (exists l, branch_locals h sPackageName = Some l /\
              isfile h (SPHINXBUILD l) = false /\
              msg = "Missing Sphinx '" ++ SPHINXBUILD l ++ "'")).
Proof.
  rewrite CConfig_run. unfold construction.
  destruct (get_pandoc_path h) as [pandoc|ex].
  - destruct (branch_locals h sPackageName) as [l|] eqn:EB.
    + destruct (isfile h (SPHINXBUILD l)) eqn:ES; [discriminate|].
      intros [= <- <-]. split; [reflexivity|].
      right. right. exists l. auto.
    + intros [= <- <-]. split; [reflexivity|].
      right. left. unfold branch_locals in EB.
      destruct (String.eqb (platform_system h) "Windows") eqn:EW; [discriminate|].
      destruct (String.eqb (platform_system h) "Linux") eqn:EL; [discriminate|].
      apply String.eqb_neq in EW, EL. auto.
  - intros [= <- <-]. split; [reflexivity|]. left. eauto.
Qed.

Lemma X2_construction_failure_witness :
  let h := Sample.linux_without_sphinx in
  let msg := "Missing Sphinx '/usr/bin/sphinx-build'" in
  @nil (stream * string) = [] /\
  ((exists ex, get_pandoc_path h = Raised ex /\ msg = str_exn ex) \/
   (platform_system h <> "Windows" /\ platform_system h <> "Linux" /\
    msg = "Operating system " ++ platform_system h ++ " (" ++ os_name h
          ++ ") not supported") \/
   (exists l, branch_locals h sPackageName = Some l /\
              isfile h (SPHINXBUILD l) = false /\
              msg = "Missing Sphinx '" ++ SPHINXBUILD l ++ "'")).
Proof.
  intros h msg. apply (X2_construction_failure h "/repo" [] [] msg).
  vm_compute. reflexivity.
Defined.


(** ** What a successful construction leaves *)

(** X4: a successful construction writes an empty line, the line
    [Running under <system> (<os name>)], the table of the finished
    dictionary, the green line [Repository setup done] and an empty line;
    a later [PrintConfig] writes that same table again. *)
Theorem X4_construction_output (h : Host) (arg : string) (con con' : console)
    (obj : instance) :
  CConfig h arg con = (Returned obj, con') ->
  con' = app con
           (app [ (Stdout, nl);
                  (Stdout,
                   ("Running under " ++ platform_system h ++ " (" ++ os_name h ++ ")")
                   ++ nl) ]
              (app (table (dictConfig obj))
                 [ (Stdout, COLBG ++ "Repository setup done" ++ nl); (Stdout, nl) ])) /\
  forall c, call PrintConfig obj c = (Returned tt, obj, app c (table (dictConfig obj))).
Proof.
  intros H. pose proof (CConfig_wf _ _ _ _ _ H) as Hwf.
  split.
  - rewrite CConfig_run in H. unfold construction in H.
    destruct (get_pandoc_path h) as [pandoc|ex]; [|discriminate].
    destruct (branch_locals h sPackageName) as [l|]; [|discriminate].
    destruct (isfile h (SPHINXBUILD l)); [|discriminate].
    injection H as <- <-. reflexivity.
  - intros c. unfold call. rewrite PrintConfig_run by assumption. reflexivity.
Qed.

Lemma X4_construction_output_witness :
  let h := Sample.linux in
  let obj := the_object (CConfig h "/repo" []) in
  snd (CConfig h "/repo" [])
  = app []
      (app [ (Stdout, nl);
             (Stdout,
              ("Running under " ++ platform_system h ++ " (" ++ os_name h ++ ")")
              ++ nl) ]
         (app (table (dictConfig obj))
            [ (Stdout, COLBG ++ "Repository setup done" ++ nl); (Stdout, nl) ])) /\
  forall c, call PrintConfig obj c = (Returned tt, obj, app c (table (dictConfig obj))).
Proof.
  intros h obj.
  apply (X4_construction_output h "/repo" [] (snd (CConfig h "/repo" [])) obj).
  vm_compute. reflexivity.
Defined.

(** X5: every constructed object has the same thirty-three keys in the
    same order, whatever the host and the argument, and its entry
    sReferencePath is its reference path. *)
Theorem X5_construction_keys (h : Host) (arg : string) (con con' : console)
    (obj : instance) :
  CConfig h arg con = (Returned obj, con') ->
  keys (dictConfig obj) = constructed_keys /\
  dict_get "sReferencePath" (dictConfig obj) = Some (VStr (sReferencePath obj)).
Proof.
  intros H. apply CConfig_returned in H as (pandoc & l & _ & _ & _ & ->).
  split; reflexivity.
Qed.

Lemma X5_construction_keys_witness :
  let obj := the_object (CConfig Sample.linux "/repo" []) in
  keys (dictConfig obj) = constructed_keys /\
  dict_get "sReferencePath" (dictConfig obj) = Some (VStr (sReferencePath obj)).
Proof.
  intros obj.
  apply (X5_construction_keys Sample.linux "/repo" [] (snd (CConfig Sample.linux "/repo" [])) obj).
  vm_compute. reflexivity.
Defined.

(** X6: in a constructed object SPHINXBUILD is the path beside the
    interpreter chosen by the platform, and it is an existing file;
    sLaTeXInterpreter is the normalized expansion of the platform's
    template when that is an existing file and [None] otherwise; sPython is
    [sys.executable] and sPandoc is the path the discovery returned. *)
Theorem X6_tool_entries (h : Host) (arg : string) (con con' : console) (obj : instance) :
  CConfig h arg con = (Returned obj, con') ->
  let sPythonPath := dirname h (sys_executable h) in
  let windows := String.eqb (platform_system h) "Windows" in
  let sb := sPythonPath ++ (if windows then "/Scripts/sphinx-build.exe" else "/sphinx-build") in
  let tex := normpath h (expandvars h
               (if windows then "%ROBOTLATEXPATH%/miktex/bin/x64/pdflatex.exe"
                else "${ROBOTLATEXPATH}/miktex/bin/x64/pdflatex")) in
  isfile h sb = true /\
  dict_get "SPHINXBUILD" (dictConfig obj) = Some (VStr sb) /\
  dict_get "sLaTeXInterpreter" (dictConfig obj)
  = Some (if isfile h tex then VStr tex else VNone) /\
  dict_get "sPython" (dictConfig obj) = Some (VStr (sys_executable h)) /\
  match get_pandoc_path h with
  | Returned pandoc => dict_get "sPandoc" (dictConfig obj) = Some (VStr pandoc)
  | Raised _ => False
  end.
Proof.
  intros H. apply CConfig_returned in H as (pandoc & l & HP & HB & HS & ->).
  unfold branch_locals in HB. cbn zeta. rewrite HP.
  destruct (String.eqb (platform_system h) "Windows");
    [| destruct (String.eqb (platform_system h) "Linux"); [|discriminate] ];
    injection HB as <-; cbn [SPHINXBUILD] in HS;
    (split; [exact HS|]); repeat split.
Qed.

Lemma X6_tool_entries_witness :
  let h := Sample.linux in
  let obj := the_object (CConfig h "/repo" []) in
  let sPythonPath := dirname h (sys_executable h) in
  let windows := String.eqb (platform_system h) "Windows" in
  let sb := sPythonPath ++ (if windows then "/Scripts/sphinx-build.exe" else "/sphinx-build") in
  let tex := normpath h (expandvars h
               (if windows then "%ROBOTLATEXPATH%/miktex/bin/x64/pdflatex.exe"
                else "${ROBOTLATEXPATH}/miktex/bin/x64/pdflatex")) in
  isfile h sb = true /\
  dict_get "SPHINXBUILD" (dictConfig obj) = Some (VStr sb) /\
  dict_get "sLaTeXInterpreter" (dictConfig obj)
  = Some (if isfile h tex then VStr tex else VNone) /\
  dict_get "sPython" (dictConfig obj) = Some (VStr (sys_executable h)) /\
  match get_pandoc_path h with
  | Returned pandoc => dict_get "sPandoc" (dictConfig obj) = Some (VStr pandoc)
  | Raised _ => False
  end.
Proof.
  intros h obj.
  apply (X6_tool_entries h "/repo" [] (snd (CConfig h "/repo" [])) obj).
  vm_compute. reflexivity.
Defined.

(** X7: in a constructed object the installed-package folder is the
    interpreter's directory followed by the platform's site-packages
    directory and the package name stored under sPackageName, and the
    documentation folder is that same text followed by _doc. *)
Theorem X7_installed_package_entries (h : Host) (arg : string) (con con' : console)
    (obj : instance) :
  CConfig h arg con = (Returned obj, con') ->
  let folder :=
    dirname h (sys_executable h)
    ++ (if String.eqb (platform_system h) "Windows"
        then "/Lib/site-packages/RobotResults2DB"
        else "/../lib/python3.9/site-packages/RobotResults2DB") in
  dict_get "sPackageName" (dictConfig obj) = Some (VStr "RobotResults2DB") /\
  dict_get "sInstalledPackageFolder" (dictConfig obj) = Some (VStr folder) /\
  dict_get "sInstalledPackageDocFolder" (dictConfig obj) = Some (VStr (folder ++ "_doc")).
Proof.
  intros H. apply CConfig_returned in H as (pandoc & l & HP & HB & HS & ->).
  unfold branch_locals in HB. cbn zeta.
  destruct (String.eqb (platform_system h) "Windows");
    [| destruct (String.eqb (platform_system h) "Linux"); [|discriminate] ];
    injection HB as <-; (split; [reflexivity|]); (split; [reflexivity|]);
    rewrite append_assoc'; reflexivity.
Qed.

Lemma X7_installed_package_entries_witness :
  let h := Sample.linux in
  let obj := the_object (CConfig h "/repo" []) in
  let folder :=
    dirname h (sys_executable h)
    ++ (if String.eqb (platform_system h) "Windows"
        then "/Lib/site-packages/RobotResults2DB"
        else "/../lib/python3.9/site-packages/RobotResults2DB") in
  dict_get "sPackageName" (dictConfig obj) = Some (VStr "RobotResults2DB") /\
  dict_get "sInstalledPackageFolder" (dictConfig obj) = Some (VStr folder) /\
  dict_get "sInstalledPackageDocFolder" (dictConfig obj) = Some (VStr (folder ++ "_doc")).
Proof.
  intros h obj.
  apply (X7_installed_package_entries h "/repo" [] (snd (CConfig h "/repo" [])) obj).
  vm_compute. reflexivity.
Defined.

(** X8: in a constructed object, with R the reference path (the
    normalized absolute form of the argument), the builder script, the two
    README files, the four packaging folders and the egg-info folder are
    [normpath (R + suffix)] for their fixed suffixes, and the HTML output
    folder is [normpath (BUILDDIR + "/html")]. *)
Theorem X8_reference_entries (h : Host) (arg : string) (con con' : console)
    (obj : instance) :
  CConfig h arg con = (Returned obj, con') ->
  let R := sReferencePath obj in
  let item (k suffix : string) :=
    dict_get k (dictConfig obj) = Some (VStr (normpath h (R ++ suffix))) in
  R = normpath h (abspath h arg) /\
  item "sDocumentationBuilder" "/sphinx-makeall.py" /\
  (exists BUILDDIR,
     dict_get "BUILDDIR" (dictConfig obj) = Some (VStr BUILDDIR) /\
     dict_get "sHTMLOutputFolder" (dictConfig obj)
     = Some (VStr (normpath h (BUILDDIR ++ "/html")))) /\
  item "sReadMe_rst" "/README.rst" /\
  item "sReadMe_md" "/README.md" /\
  item "sSetupBuildFolder" "/build" /\
  item "sSetupBuildLibFolder" "/build/lib" /\
  item "sSetupBuildLibDocFolder" "/build/lib/RobotResults2DB_doc" /\
  item "sSetupDistFolder" "/dist" /\
  item "sEggInfoFolder" "/RobotResults2DB.egg-info".
Proof.
  intros H. apply CConfig_returned in H as (pandoc & l & _ & _ & _ & ->).
  cbn zeta. repeat split. eexists. split; reflexivity.
Qed.

Lemma X8_reference_entries_witness :
  let h := Sample.linux in
  let obj := the_object (CConfig h "relative/../repo" []) in
  let R := sReferencePath obj in
  let item (k suffix : string) :=
    dict_get k (dictConfig obj) = Some (VStr (normpath h (R ++ suffix))) in
  R = normpath h (abspath h "relative/../repo") /\
  item "sDocumentationBuilder" "/sphinx-makeall.py" /\
  (exists BUILDDIR,
     dict_get "BUILDDIR" (dictConfig obj) = Some (VStr BUILDDIR) /\
     dict_get "sHTMLOutputFolder" (dictConfig obj)
     = Some (VStr (normpath h (BUILDDIR ++ "/html")))) /\
  item "sReadMe_rst" "/README.rst" /\
  item "sReadMe_md" "/README.md" /\
  item "sSetupBuildFolder" "/build" /\
  item "sSetupBuildLibFolder" "/build/lib" /\
  item "sSetupBuildLibDocFolder" "/build/lib/RobotResults2DB_doc" /\
  item "sSetupDistFolder" "/dist" /\
  item "sEggInfoFolder" "/RobotResults2DB.egg-info".
Proof.
  intros h obj.
  apply (X8_reference_entries h "relative/../repo" []
           (snd (CConfig h "relative/../repo" [])) obj).
  vm_compute. reflexivity.
Defined.

(** ** The table *)

(** X9: no key of a constructed object is longer than the column width
    of [PrintConfig], so every key is padded to exactly thirty characters
    and the separators of the table are aligned. *)
Theorem X9_table_alignment (h : Host) (arg : string) (con con' : console)
    (obj : instance) (k : string) (v : value) :
  CConfig h arg con = (Returned obj, con') ->
  In (k, v) (dictConfig obj) ->
  String.length k <= nJust /\
  String.length (rjust nJust k) = nJust /\
  line (k, v) = (Stdout, ((spaces (nJust - String.length k) ++ k) ++ " : " ++ str v) ++ nl).
Proof.
  intros H Hin.
  assert (Hk : In k constructed_keys).
  { apply CConfig_returned in H as (pandoc & l & _ & _ & _ & ->).
    change constructed_keys
      with (keys (app (static_items (normpath h (abspath h arg)))
                      (resolved_items h (normpath h (abspath h arg)) pandoc l))).
    unfold keys. change k with (fst (k, v)). now apply in_map. }
  assert (Hlen : String.length k <= nJust).
  { unfold constructed_keys in Hk. cbn [In] in Hk.
    repeat (destruct Hk as [<-|Hk]; [vm_compute; lia|]). contradiction. }
  split; [assumption|]. split.
  - rewrite rjust_length. lia.
  - reflexivity.
Qed.

Lemma X9_table_alignment_witness :
  let k := "SOURCEDIR" in
  let v := VStr "/repo/doc" in
  String.length k <= nJust /\
  String.length (rjust nJust k) = nJust /\
  line (k, v) = (Stdout, ((spaces (nJust - String.length k) ++ k) ++ " : " ++ str v) ++ nl).
Proof.
  intros k v.
  apply (X9_table_alignment Sample.linux "/repo" [] (snd (CConfig Sample.linux "/repo" []))
           (the_object (CConfig Sample.linux "/repo" [])) k v).
  - vm_compute. reflexivity.
  - vm_compute. do 23 right. left. reflexivity.
Defined.

(** X10: [PrintConfig] on a constructed object returns without raising,
    leaves the object as it is, and writes thirty-five items (one per entry
    between two empty lines), none of them to the error stream. *)
Theorem X10_PrintConfig_stdout_only (h : Host) (arg : string) (con con' : console)
    (obj : instance) (c : console) :
  CConfig h arg con = (Returned obj, con') ->
  exists c',
    call PrintConfig obj c = (Returned tt, obj, c') /\
    stderr_of c' = stderr_of c /\
    List.length c' = List.length c + 35.
Proof.
  intros H. pose proof (CConfig_wf _ _ _ _ _ H) as Hwf.
  eexists. split; [unfold call; rewrite PrintConfig_run by assumption; reflexivity|].
  cbn [self out]. split.
  - now rewrite stderr_of_app, stderr_of_table, app_nil_r.
  - rewrite length_app, table_length.
    apply CConfig_returned in H as (pandoc & l & _ & _ & _ & ->). reflexivity.
Qed.

Lemma X10_PrintConfig_stdout_only_witness :
  let obj := the_object (CConfig Sample.linux "/repo" []) in
  exists c',
    call PrintConfig obj [] = (Returned tt, obj, c') /\
    stderr_of c' = stderr_of [] /\
    List.length c' = List.length (@nil (stream * string)) + 35.
Proof.
  intros obj.
  apply (X10_PrintConfig_stdout_only Sample.linux "/repo" []
           (snd (CConfig Sample.linux "/repo" [])) obj []).
  vm_compute. reflexivity.
Defined.

(** ** More on lookup *)

(** X11: for an unknown name [Get] on a constructed object adds exactly
    one text to the error stream, the red line in which [printerror] wraps
    the message of [Get] (hence the doubled Error: and the doubled
    exclamation mark), and five items more than the dictionary has
    entries in all. *)
Theorem X11_unknown_name_error_line (h : Host) (arg : string) (con con' : console)
    (obj : instance) (sName : option string) (c : console) :
  CConfig h arg con = (Returned obj, con') ->
  name_unknown sName (dictConfig obj) = true ->
  exists c',
    call (Get sName) obj c = (Returned VNone, obj, c') /\
    stderr_of c'
    = app (stderr_of c)
        [ COLBR ++ "Error: Error: Configuration parameter '" ++ fmt_name sName
            ++ "' not existing!!" ++ nl ] /\
    List.length c' = List.length c + List.length (dictConfig obj) + 5.
Proof.
  intros H Hu. pose proof (CConfig_wf _ _ _ _ _ H) as Hwf.
  eexists. split; [now apply Get_unknown|]. split.
  - rewrite !stderr_of_app, stderr_of_table, app_nil_r.
    f_equal. unfold complaint, stderr_of. cbn [filter is_stderr fst map snd].
    do 2 f_equal. cbn [append]. do 7 f_equal.
    rewrite !append_assoc'. reflexivity.
  - rewrite !length_app, table_length. cbn [complaint List.length]. lia.
Qed.

Lemma X11_unknown_name_error_line_witness :
  let obj := the_object (CConfig Sample.linux "/repo" []) in
  let sName := Some "sphinx" in
  exists c',
    call (Get sName) obj [] = (Returned VNone, obj, c') /\
    stderr_of c'
    = app (stderr_of [])
        [ COLBR ++ "Error: Error: Configuration parameter '" ++ fmt_name sName
            ++ "' not existing!!" ++ nl ] /\
    List.length c' = List.length (@nil (stream * string)) + List.length (dictConfig obj) + 5.
Proof.
  intros obj sName.
  apply (X11_unknown_name_error_line Sample.linux "/repo" []
           (snd (CConfig Sample.linux "/repo" [])) obj sName []);
    vm_compute; reflexivity.
Defined.

(** X12: on a constructed object [Get()] without a name and
    [Get("None")] return the same value and write the same text. *)
Theorem X12_no_name_is_the_name_None (h : Host) (arg : string) (con con' : console)
    (obj : instance) (c : console) :
  CConfig h arg con = (Returned obj, con') ->
  call (Get None) obj c = call (Get (Some "None")) obj c.
Proof.
  intros H. pose proof (CConfig_wf _ _ _ _ _ H) as Hwf.
  rewrite !Get_unknown; try assumption; try reflexivity.
  apply CConfig_returned in H as (pandoc & l & _ & _ & _ & ->).
  reflexivity.
Qed.

Lemma X12_no_name_is_the_name_None_witness :
  let obj := the_object (CConfig Sample.linux "/repo" []) in
  call (Get None) obj [] = call (Get (Some "None")) obj [].
Proof.
  intros obj.
  apply (X12_no_name_is_the_name_None Sample.linux "/repo" []
           (snd (CConfig Sample.linux "/repo" [])) obj []).
  vm_compute. reflexivity.
Defined.

(** X13: on a constructed object, a [Get] that returns [None] without
    writing anything was asked for sLaTeXInterpreter, whose entry is
    [None]; for every other name a [None] comes with the complaint. *)
Theorem X13_silent_none_is_latex (h : Host) (arg : string) (con con' : console)
    (obj : instance) (sName : option string) (c : console) :
  CConfig h arg con = (Returned obj, con') ->
  call (Get sName) obj c = (Returned VNone, obj, c) ->
  sName = Some "sLaTeXInterpreter" /\
  dict_get "sLaTeXInterpreter" (dictConfig obj) = Some VNone.
Proof.
  intros H HG. pose proof (CConfig_wf _ _ _ _ _ H) as Hwf.
  destruct (name_unknown_dec sName (dictConfig obj)) as [Hu|(k & v & -> & Hk)].
  - rewrite (Get_unknown obj c sName Hwf Hu) in HG. injection HG as HG.
    apply app_eq_self in HG. discriminate HG.
  - rewrite (Get_known obj c k v Hk) in HG. injection HG as ->.
    assert (k = "sLaTeXInterpreter"); [|subst; auto].
    apply CConfig_returned in H as (pandoc & l & _ & _ & _ & ->).
    apply dict_get_In in Hk. cbn [dictConfig] in Hk.
    apply in_app_or in Hk as [Hk|Hk]; cbn [static_items resolved_items In] in Hk;
      repeat (destruct Hk as [Hk|Hk]; [ try discriminate Hk | ]); try contradiction.
    + now injection Hk.
Qed.

Lemma X13_silent_none_is_latex_witness :
  let obj := the_object (CConfig Sample.linux "/repo" []) in
  Some "sLaTeXInterpreter" = Some "sLaTeXInterpreter" /\
  dict_get "sLaTeXInterpreter" (dictConfig obj) = Some VNone.
Proof.
  intros obj.
  apply (X13_silent_none_is_latex Sample.linux "/repo" [] (snd (CConfig Sample.linux "/repo" []))
           obj (Some "sLaTeXInterpreter") []); vm_compute; reflexivity.
Defined.

(** X14: on a constructed object, whatever calls of [Get] and
    [PrintConfig] are made and in whatever order, none raises, the object
    stays as it is, the console only grows, and every call returns what
    the dictionary alone determines: the stored value for a key, [None]
    otherwise. *)
Theorem X14_session_answers (h : Host) (arg : string) (con con' : console)
    (obj : instance) (rs : list request) (c : console) :
  CConfig h arg con = (Returned obj, con') ->
  exists c',
    call (session rs) obj c = (Returned (map (answer (dictConfig obj)) rs), obj, c') /\
    List.length c <= List.length c'.
Proof.
  intros H. apply CConfig_wf in H. unfold call. revert c.
  induction rs as [|r rest IH]; intros c; cbn [session map].
  - exists c. split; [reflexivity | lia].
  - destruct (serve_answer obj r c H) as (c1 & Hr & Hl1).
    destruct (IH c1) as (c2 & Hs & Hl2).
    unfold bind. rewrite Hr.
    destruct (session rest (mkWorld obj c1)) as [o [obj' c3]].
    cbn [self out] in Hs. injection Hs as -> -> ->.
    exists c2. cbn [self out ret]. split; [reflexivity | lia].
Qed.

Lemma X14_session_answers_witness :
  let h := Sample.linux in
  let obj := the_object (CConfig h "/repo" []) in
  let rs := [ReqGet (Some "sVersion"); ReqGet (Some "version"); ReqPrintConfig;
             ReqGet None; ReqGet (Some "sVersion")] in
  exists c',
    call (session rs) obj [] = (Returned (map (answer (dictConfig obj)) rs), obj, c') /\
    List.length (@nil (stream * string)) <= List.length c'.
Proof.
  intros h obj rs.
  apply (X14_session_answers h "/repo" [] (snd (CConfig h "/repo" [])) obj rs []).
  vm_compute. reflexivity.
Defined.

